(** * Shallow embedding of the [Custom] block of i3status-rust
    (src/blocks/custom.rs) and the properties of its block contract. *)

From Stdlib Require Import String Ascii List Bool ZArith Lia.
Import ListNotations.

Open Scope string_scope.

(** ** Rust's [Result] and the [?] operator *)

Inductive result (A E : Type) : Type :=
| Ok (a : A)
| Err (e : E).
Arguments Ok {A E} a.
Arguments Err {A E} e.

Definition res_bind {A B E} (r : result A E) (k : A -> result B E) : result B E :=
  match r with
  | Ok a => k a
  | Err e => Err e
  end.

Definition map_err {A E F} (f : E -> F) (r : result A E) : result A F :=
  match r with
  | Ok a => Ok a
  | Err e => Err (f e)
  end.

(** [Result::ok]: the error, if any, is discarded. *)
Definition ok {A E} (r : result A E) : option A :=
  match r with
  | Ok a => Some a
  | Err _ => None
  end.

Notation "x <- r ;? k" := (res_bind r (fun x => k))
  (at level 61, r at next level, right associativity).

(** [Option::is_some]. *)
Definition is_some {A} (o : option A) : bool :=
  match o with Some _ => true | None => false end.

Definition is_ok {A E} (r : result A E) : bool :=
  match r with Ok _ => true | Err _ => false end.

(** ** Collaborators of the block (crate modules not under src/) *)

(** Modelled from the spec: [crate::errors::Error], the error taxonomy of
    section 7 as far as this block raises it ([BlockError] from the block,
    a configuration error from signal validation, a channel error when a
    re-render request cannot be delivered). *)
Inductive Error : Type :=
| BlockError (block : string) (msg : string)
| ConfigurationError (msg : string)
| ChannelError (msg : string).

(** Modelled from the spec: [crate::blocks::Update], the Update Directive
    [Every(duration)] / [OnDemand] / [Once]; durations in milliseconds. *)
Inductive Update : Type :=
| Every (ms : N)
| OnDemand
| Once.

(** Instants ([std::time::Instant]) as nanoseconds. *)
Definition Instant := Z.

(** [crate::scheduler::Task]: the Re-render Request [{ id, update_time }]. *)
Record Task : Type := mkTask {
  task_id : nat;
  update_time : Instant
}.

(** [crate::widgets::State]. *)
Inductive State : Type := Idle | Info | Good | Warning | Critical.

(** [crate::widgets::text::TextWidget], the fields [render] touches. *)
Record TextWidget : Type := mkTextWidget {
  w_id : nat;
  w_instance : nat;
  w_text : string;
  w_icon : option string;
  w_state : State
}.

(** [TextWidget::new(id, instance, shared_config)]: empty text, no icon,
    idle state. *)
Definition text_widget_new (id instance : nat) : TextWidget :=
  mkTextWidget id instance "" None Idle.

Definition set_text (w : TextWidget) (t : string) : TextWidget :=
  mkTextWidget w.(w_id) w.(w_instance) t w.(w_icon) w.(w_state).

Definition set_state (w : TextWidget) (s : State) : TextWidget :=
  mkTextWidget w.(w_id) w.(w_instance) w.(w_text) w.(w_icon) s.

(** ** Processes: [std::process::Output] and [std::io::Error] *)

Record ProcOutput : Type := mkProcOutput {
  status : Z;       (** exit status *)
  stdout : string   (** captured standard output, its raw bytes *)
}.

(** An [io::Error]: an OS error (errno and its description) or a
    simple message of the standard library. *)
Inductive IoError : Type :=
| IoOs (code : nat) (detail : string)
| IoSimple (msg : string).

Fixpoint uint_to_string (d : Decimal.uint) : string :=
  match d with
  | Decimal.Nil => ""
  | Decimal.D0 d => String "0" (uint_to_string d)
  | Decimal.D1 d => String "1" (uint_to_string d)
  | Decimal.D2 d => String "2" (uint_to_string d)
  | Decimal.D3 d => String "3" (uint_to_string d)
  | Decimal.D4 d => String "4" (uint_to_string d)
  | Decimal.D5 d => String "5" (uint_to_string d)
  | Decimal.D6 d => String "6" (uint_to_string d)
  | Decimal.D7 d => String "7" (uint_to_string d)
  | Decimal.D8 d => String "8" (uint_to_string d)
  | Decimal.D9 d => String "9" (uint_to_string d)
  end.

Definition nat_to_string (n : nat) : string := uint_to_string (Nat.to_uint n).

(** [impl Display for io::Error]: ["{detail} (os error {code})"] for OS
    errors, the message itself otherwise. *)
Definition io_error_to_string (e : IoError) : string :=
  match e with
  | IoOs code detail =>
      detail ++ " (os error " ++ nat_to_string code ++ ")"
  | IoSimple msg => msg
  end.

(** A command line: [Command::new(prog).args(args)]. *)
Record Command : Type := mkCommand {
  prog : string;
  args : list string
}.

(** ** Text: [String::from_utf8_lossy], [str::trim] and UTF-8 *)

(** A Rust [String] is kept as its UTF-8 bytes (one [ascii] per byte); a
    [&str] being worked on as its sequence of [char]s (code points, [Z]). *)

Section Utf8.
Local Open Scope Z_scope.

Definition byte_val (a : ascii) : Z := Z.of_nat (nat_of_ascii a).

Definition byte_of (v : Z) : ascii := ascii_of_nat (Z.to_nat v).

Definition REPLACEMENT_CHARACTER : Z := 65533. (* U+FFFD *)

Definition in_range (lo hi v : Z) : bool := Z.leb lo v && Z.leb v hi.

(** A continuation byte [10xxxxxx]. *)
Definition is_cont (b : Z) : bool := in_range 128 191 b.

(** The admissible second bytes of a three-byte sequence led by [b0]
    (no overlong forms, no surrogates). *)
Definition second_ok3 (b0 b1 : Z) : bool :=
  if Z.eqb b0 224 then in_range 160 191 b1
  else if Z.eqb b0 237 then in_range 128 159 b1
  else is_cont b1.

(** The admissible second bytes of a four-byte sequence led by [b0]
    (no overlong forms, nothing above U+10FFFF). *)
Definition second_ok4 (b0 b1 : Z) : bool :=
  if Z.eqb b0 240 then in_range 144 191 b1
  else if Z.eqb b0 244 then in_range 128 143 b1
  else is_cont b1.

(** [String::from_utf8_lossy]: decode the bytes, replacing each maximal
    prefix of a valid sequence that cannot be completed (and each byte that
    starts none) by one U+FFFD, as [Utf8Chunks] does. *)
Fixpoint from_utf8_lossy (l : list ascii) : list Z :=
  match l with
  | [] => []
  | a0 :: r0 =>
    let b0 := byte_val a0 in
    if Z.ltb b0 128 then b0 :: from_utf8_lossy r0
    else if in_range 194 223 b0 then
      match r0 with
      | a1 :: r1 =>
          if is_cont (byte_val a1)
          then ((b0 - 192) * 64 + (byte_val a1 - 128)) :: from_utf8_lossy r1
          else REPLACEMENT_CHARACTER :: from_utf8_lossy r0
      | [] => [REPLACEMENT_CHARACTER]
      end
    else if in_range 224 239 b0 then
      match r0 with
      | a1 :: r1 =>
          if second_ok3 b0 (byte_val a1) then
            match r1 with
            | a2 :: r2 =>
                if is_cont (byte_val a2)
                then ((b0 - 224) * 4096 + (byte_val a1 - 128) * 64
                      + (byte_val a2 - 128)) :: from_utf8_lossy r2
                else REPLACEMENT_CHARACTER :: from_utf8_lossy r1
            | [] => [REPLACEMENT_CHARACTER]
            end
          else REPLACEMENT_CHARACTER :: from_utf8_lossy r0
      | [] => [REPLACEMENT_CHARACTER]
      end
    else if in_range 240 244 b0 then
      match r0 with
      | a1 :: r1 =>
          if second_ok4 b0 (byte_val a1) then
            match r1 with
            | a2 :: r2 =>
                if is_cont (byte_val a2) then
                  match r2 with
                  | a3 :: r3 =>
                      if is_cont (byte_val a3)
                      then ((b0 - 240) * 262144 + (byte_val a1 - 128) * 4096
                            + (byte_val a2 - 128) * 64 + (byte_val a3 - 128))
                           :: from_utf8_lossy r3
                      else REPLACEMENT_CHARACTER :: from_utf8_lossy r2
                  | [] => [REPLACEMENT_CHARACTER]
                  end
                else REPLACEMENT_CHARACTER :: from_utf8_lossy r1
            | [] => [REPLACEMENT_CHARACTER]
            end
          else REPLACEMENT_CHARACTER :: from_utf8_lossy r0
      | [] => [REPLACEMENT_CHARACTER]
      end
    else REPLACEMENT_CHARACTER :: from_utf8_lossy r0
  end.

(** [char::encode_utf8]. *)
Definition encode_utf8 (c : Z) : list ascii :=
  if Z.ltb c 128 then [byte_of c]
  else if Z.ltb c 2048 then
    [byte_of (192 + c / 64); byte_of (128 + c mod 64)]
  else if Z.ltb c 65536 then
    [byte_of (224 + c / 4096); byte_of (128 + (c / 64) mod 64);
     byte_of (128 + c mod 64)]
  else
    [byte_of (240 + c / 262144); byte_of (128 + (c / 4096) mod 64);
     byte_of (128 + (c / 64) mod 64); byte_of (128 + c mod 64)].

(** The [String] holding a sequence of [char]s. *)
Definition string_of_chars (cs : list Z) : string :=
  string_of_list_ascii (flat_map encode_utf8 cs).

(** [char::is_whitespace]: the Unicode White_Space property. *)
Definition is_whitespace (c : Z) : bool :=
  in_range 9 13 c || Z.eqb c 32 || Z.eqb c 133 || Z.eqb c 160
  || Z.eqb c 5760 || in_range 8192 8202 c || Z.eqb c 8232 || Z.eqb c 8233
  || Z.eqb c 8239 || Z.eqb c 8287 || Z.eqb c 12288.

Fixpoint drop_ws (l : list Z) : list Z :=
  match l with
  | c :: r => if is_whitespace c then drop_ws r else l
  | [] => []
  end.

(** [str::trim]: leading and trailing whitespace removed. *)
Definition trim (cs : list Z) : list Z := rev (drop_ws (rev (drop_ws cs))).

End Utf8.

(** [String::from_utf8_lossy(&o.stdout).trim().to_owned()]. *)
Definition stdout_text (out : ProcOutput) : string :=
  string_of_chars (trim (from_utf8_lossy (list_ascii_of_string out.(stdout)))).

(** ** The re-render channel ([crossbeam_channel::Sender<Task>]) *)

(** The unbounded channel shared with the scheduler: whether its receiver
    is still alive, and the requests queued so far. *)
Record Channel : Type := mkChannel {
  chan_open : bool;
  chan_queue : list Task
}.

(** ** The block: [struct Custom] *)

(** The [cycle] field, a [Peekable<Cycle<vec::IntoIter<String>>>]: the
    commands and how many of them [next] has consumed. *)
Record CycleIter : Type := mkCycle {
  cyc_items : list string;
  cyc_pos : nat
}.

(** [Peekable::peek] on the cycling iterator: the element at the current
    position, [None] when there is nothing to cycle over. *)
Definition cycle_peek (c : CycleIter) : option string :=
  match c.(cyc_items) with
  | [] => None
  | items => nth_error items (c.(cyc_pos) mod length items)
  end.

(** [Iterator::next]: consume one element. *)
Definition cycle_next (c : CycleIter) : CycleIter :=
  mkCycle c.(cyc_items) (S c.(cyc_pos)).

Module Custom.

Record t : Type := mk {
  id : nat;
  update_interval : Update;
  command : option string;
  on_click : option string;
  cycle : option CycleIter;
  signal : option Z;
  json : bool;
  hide_when_empty : bool;
  shell : string
}.

Definition with_cycle (b : t) (c : option CycleIter) : t :=
  mk b.(id) b.(update_interval) b.(command) b.(on_click) c
     b.(signal) b.(json) b.(hide_when_empty) b.(shell).

Definition with_signal (b : t) (s : option Z) : t :=
  mk b.(id) b.(update_interval) b.(command) b.(on_click) b.(cycle)
     s b.(json) b.(hide_when_empty) b.(shell).

Definition with_command (b : t) (c : option string) : t :=
  mk b.(id) b.(update_interval) c b.(on_click) b.(cycle)
     b.(signal) b.(json) b.(hide_when_empty) b.(shell).

End Custom.

(** [struct CustomConfig]. *)
Record CustomConfig : Type := mkCustomConfig {
  cfg_interval : Update;
  cfg_command : option string;
  cfg_cycle : option (list string);
  cfg_signal : option Z;
  cfg_json : bool;
  cfg_hide_when_empty : bool;
  cfg_shell : string
}.

(** [Output], the JSON object a command prints in [json] mode. *)
Record Output : Type := mkOutput {
  out_icon : string;
  out_state : State;
  out_text : string
}.

(** ** The world the block acts on *)

(** The block's own state, the channel its [tx_update_request] sends on,
    and the command lines the block has had the OS run, oldest first. *)
Record World : Type := mkWorld {
  blk : Custom.t;
  chan : Channel;
  procs : list Command
}.

(** A state and error monad for the block's methods. *)
Definition M (A : Type) : Type := World -> World * result A Error.

Definition ret {A} (a : A) : M A := fun w => (w, Ok a).

Definition bind {A B} (m : M A) (k : A -> M B) : M B :=
  fun w => match m w with
           | (w', Ok a) => k a w'
           | (w', Err e) => (w', Err e)
           end.

Notation "x <- m ;; k" := (bind m (fun x => k))
  (at level 61, m at next level, right associativity).

Definition get_blk : M Custom.t := fun w => (w, Ok w.(blk)).

Definition put_blk (b : Custom.t) : M unit :=
  fun w => (mkWorld b w.(chan) w.(procs), Ok tt).

(** The OS runs a command line. *)
Definition log_proc (c : Command) : M unit :=
  fun w => (mkWorld w.(blk) w.(chan) (w.(procs) ++ [c]), Ok tt).

(** [tx_update_request.send(task)?]: queued if the receiver is alive,
    a channel error otherwise. *)
Definition push_task (w : World) (t : Task) : World :=
  mkWorld w.(blk) (mkChannel true (w.(chan).(chan_queue) ++ [t])) w.(procs).

Definition send_error : Error := ChannelError "sending on a disconnected channel".

Definition send (t : Task) : M unit :=
  fun w =>
    if w.(chan).(chan_open)
    then (push_task w t, Ok tt)
    else (w, Err send_error).

(** [impl Default for CustomConfig]; [shell_env] is what
    [env::var("SHELL")] returned, [None] when it failed. *)
Definition default_config (shell_env : option string) : CustomConfig :=
  mkCustomConfig (Every 10000) None None None false false
    (match shell_env with Some sh => sh | None => "sh" end).

(** ** [impl ConfigBlock for Custom] *)

Module ConfigBlock.
Section New.

(** Which signal numbers the OS signal layer accepts. *)
Variable valid_signal : Z -> bool.

(** Modelled from the spec: [crate::signals::convert_to_valid_signal], the
    construction-time "signal number validity" check that rejects
    out-of-range OS signal numbers and passes valid ones on. *)
Definition convert_to_valid_signal (signal : Z) : result Z Error :=
  if valid_signal signal then Ok signal
  else Err (ConfigurationError "A provided signal was out of bounds").

(** [Custom::new(id, block_config, shared_config, tx)]. *)
Definition new (id : nat) (block_config : CustomConfig) : result Custom.t Error :=
  let custom :=
    Custom.mk id block_config.(cfg_interval) None None None None
              block_config.(cfg_json) block_config.(cfg_hide_when_empty)
              block_config.(cfg_shell) in
  custom <- (match block_config.(cfg_signal) with
             | Some signal =>
                 sig <- convert_to_valid_signal signal ;?
                 Ok (Custom.with_signal custom (Some sig))
             | None => Ok custom
             end) ;?
  if is_some block_config.(cfg_cycle) && is_some block_config.(cfg_command)
  then Err (BlockError "custom" "`command` and `cycle` are mutually exclusive")
  else
    match block_config.(cfg_cycle) with
    | Some cycle => Ok (Custom.with_cycle custom (Some (mkCycle cycle 0)))
    | None =>
        match block_config.(cfg_command) with
        | Some command => Ok (Custom.with_command custom (Some command))
        | None => Ok custom
        end
    end.

(** [override_on_click]: the configuration layer writes [v] through the
    returned [&mut self.on_click]. *)
Definition override_on_click (b : Custom.t) (v : option string) : Custom.t :=
  Custom.mk b.(Custom.id) b.(Custom.update_interval) b.(Custom.command) v
    b.(Custom.cycle) b.(Custom.signal) b.(Custom.json)
    b.(Custom.hide_when_empty) b.(Custom.shell).

End New.
End ConfigBlock.

(** ** [impl Block for Custom] *)

Module Block.
Section Methods.

(** [serde_json::from_str::<Output>]: the parsed object, or the parser's
    error message. *)
Variable parse_output : string -> result Output string.

(** [TextWidget::set_icon]: looks the icon up in the shared configuration;
    may fail. *)
Variable set_icon : TextWidget -> string -> result TextWidget Error.

Definition update_interval (b : Custom.t) : Update := b.(Custom.update_interval).

Definition id (b : Custom.t) : nat := b.(Custom.id).

(** [command_str] in [render]: the command the cycle is at, else the
    configured command, else the empty command. *)
Definition command_str (b : Custom.t) : string :=
  match
    match b.(Custom.cycle) with
    | Some c => Some (match cycle_peek c with Some s => s | None => "" end)
    | None => b.(Custom.command)
    end
  with
  | Some s => s
  | None => ""
  end.

(** [Command::new(&self.shell).args(&["-c", &command_str])]. *)
Definition render_command (b : Custom.t) : Command :=
  mkCommand b.(Custom.shell) ["-c"; command_str b].

(** [raw_output] in [render]: the trimmed standard output whatever the
    exit status, or the error's message when the command could not run. *)
Definition raw_output (o : result ProcOutput IoError) : string :=
  match o with
  | Ok out => stdout_text out
  | Err e => io_error_to_string e
  end.

(** The [let text = { ... }] block of [render]: the widget so far and the
    text to display. *)
Definition render_text (b : Custom.t) (o : result ProcOutput IoError)
  : result (TextWidget * string) Error :=
  let widget := text_widget_new (id b) 0 in
  let raw_output := raw_output o in
  if b.(Custom.json) then
    output <- map_err
                (fun e => BlockError "custom" ("Error parsing JSON: " ++ e))
                (parse_output raw_output) ;?
    widget <- (if negb (String.eqb output.(out_icon) "")
               then set_icon widget output.(out_icon)
               else Ok widget) ;?
    Ok (set_state widget output.(out_state), output.(out_text))
  else Ok (widget, raw_output).

(** The part of [render] after the command has run, given what
    [.output().await] returned. *)
Definition render_output (b : Custom.t) (o : result ProcOutput IoError)
  : result (list TextWidget) Error :=
  wt <- render_text b o ;?
  let '(widget, text) := wt in
  if String.eqb text "" && b.(Custom.hide_when_empty)
  then Ok []
  else Ok [set_text widget text].

(** [render]: the OS runs the command ([exec] says with what outcome),
    then the output is turned into widgets. *)
Definition render (exec : Command -> result ProcOutput IoError)
  : M (list TextWidget) :=
  b <- get_blk ;;
  let cmd := render_command b in
  _ <- log_proc cmd ;;
  fun w => (w, render_output b (exec cmd)).

(** [signal(signal)] at instant [now]. *)
Definition signal (sig_in : Z) (now : Instant) : M unit :=
  b <- get_blk ;;
  match b.(Custom.signal) with
  | Some sig =>
      if Z.eqb sig sig_in then send (mkTask b.(Custom.id) now) else ret tt
  | None => ret tt
  end.

(** [click(_e)] at instant [now]; [spawn] is the outcome of
    [spawn_child_async] for a command line. *)
Definition click (spawn : Command -> result unit IoError) (now : Instant)
  : M unit :=
  b <- get_blk ;;
  update1 <- (match b.(Custom.on_click) with
              | Some on_click =>
                  let cmd := mkCommand b.(Custom.shell) ["-c"; on_click] in
                  _ <- log_proc cmd ;;
                  let _ := ok (spawn cmd) in
                  ret true
              | None => ret false
              end) ;;
  update <- (match b.(Custom.cycle) with
             | Some cycle =>
                 _ <- put_blk (Custom.with_cycle b (Some (cycle_next cycle))) ;;
                 ret true
             | None => ret update1
             end) ;;
  if update then send (mkTask b.(Custom.id) now) else ret tt.

End Methods.
End Block.

(** ** Operation sequences *)

(** One call of the block's contract, with what the environment answers. *)
Inductive Op : Type :=
| ORender (exec : Command -> result ProcOutput IoError)
| OClick (spawn : Command -> result unit IoError) (now : Instant)
| OSignal (n : Z) (now : Instant).

Definition run_op (parse_output : string -> result Output string)
  (set_icon : TextWidget -> string -> result TextWidget Error)
  (op : Op) (w : World) : World :=
  match op with
  | ORender exec => fst (Block.render parse_output set_icon exec w)
  | OClick spawn now => fst (Block.click spawn now w)
  | OSignal n now => fst (Block.signal n now w)
  end.

Fixpoint run_ops parse_output set_icon (ops : list Op) (w : World) : World :=
  match ops with
  | [] => w
  | op :: ops' => run_ops parse_output set_icon ops' (run_op parse_output set_icon op w)
  end.

(** ** General lemmas *)

Lemma render_eq parse_output set_icon exec w :
  Block.render parse_output set_icon exec w =
  (mkWorld w.(blk) w.(chan) (w.(procs) ++ [Block.render_command w.(blk)]),
   Block.render_output parse_output set_icon w.(blk)
     (exec (Block.render_command w.(blk)))).
Proof. destruct w; reflexivity. Qed.

Lemma signal_eq n now w :
  Block.signal n now w =
  match w.(blk).(Custom.signal) with
  | Some sig =>
      if Z.eqb sig n then send (mkTask w.(blk).(Custom.id) now) w else (w, Ok tt)
  | None => (w, Ok tt)
  end.
Proof.
  destruct w as [[] ch ps]; simpl.
  unfold Block.signal, bind, get_blk, ret; simpl.
  destruct signal as [sig|]; [destruct (Z.eqb sig n)|]; reflexivity.
Qed.

Lemma io_os_message_nonempty code detail :
  io_error_to_string (IoOs code detail) <> "".
Proof. destruct detail; simpl; discriminate. Qed.

(** ** C1 *)

(** A command that exits with status 1 and prints [boom], in a block
    without JSON parsing. *)
Definition c1_block : Custom.t :=
  Custom.mk 0 (Every 10000) (Some "exit 1") None None None false false "sh".

Definition c1_exec (c : Command) : result ProcOutput IoError :=
  Ok (mkProcOutput 1 "boom").

Definition c1_parse (s : string) : result Output string := Err "expected value".

Definition c1_set_icon (w : TextWidget) (i : string) : result TextWidget Error :=
  Ok w.

(** Claim C1, counterexample: the subprocess exits nonzero, yet [render]
    returns [Ok] with a widget showing its output. *)
Lemma C1_nonzero_exit_is_ok :
  snd (Block.render c1_parse c1_set_icon c1_exec (mkWorld c1_block (mkChannel true []) []))
  = Ok [mkTextWidget 0 0 "boom" None Idle].
Proof. vm_compute. reflexivity. Qed.

(** Claim C1 (as amended): [render] fails only in JSON mode. With JSON
    disabled it always returns [Ok]. With JSON enabled, output that does
    not parse makes it return the parse error, an icon that cannot be set
    makes it return that error, and these are its only errors: a parsed
    object with no icon, or with an icon that is found, renders. The exit
    status of the command never matters, only its standard output. *)
Theorem C1_render_errors_only_from_json parse_output set_icon exec w :
  let raw := Block.raw_output (exec (Block.render_command w.(blk))) in
  let widget := text_widget_new w.(blk).(Custom.id) 0 in
  let r := snd (Block.render parse_output set_icon exec w) in
  (w.(blk).(Custom.json) = false -> exists ws, r = Ok ws) /\
  (w.(blk).(Custom.json) = true ->
   forall m, parse_output raw = Err m ->
   r = Err (BlockError "custom" ("Error parsing JSON: " ++ m))) /\
  (w.(blk).(Custom.json) = true ->
   forall o e, parse_output raw = Ok o -> o.(out_icon) <> "" ->
   set_icon widget o.(out_icon) = Err e -> r = Err e) /\
  (forall e, r = Err e ->
   w.(blk).(Custom.json) = true /\
   ((exists m, parse_output raw = Err m /\
               e = BlockError "custom" ("Error parsing JSON: " ++ m)) \/
    (exists o, parse_output raw = Ok o /\ o.(out_icon) <> "" /\
               set_icon widget o.(out_icon) = Err e))) /\
  (forall b st1 st2 out,
   Block.render_output parse_output set_icon b (Ok (mkProcOutput st1 out))
   = Block.render_output parse_output set_icon b (Ok (mkProcOutput st2 out))).
Proof.
  cbv zeta. rewrite render_eq; cbn [snd blk].
  unfold Block.render_output, Block.render_text, Block.id.
  split; [|split; [|split; [|split]]].
  - intros Hj. rewrite Hj. cbn [res_bind].
    destruct (_ && _); eexists; reflexivity.
  - intros Hj m Hp. rewrite Hj, Hp. reflexivity.
  - intros Hj o e Hp Hi Hs. rewrite Hj, Hp. cbn [res_bind map_err].
    destruct (String.eqb_spec (out_icon o) "") as [E|_]; [contradiction|].
    cbn [negb]. rewrite Hs. reflexivity.
  - intros e. destruct (Custom.json (blk w)).
    + destruct (parse_output _) as [o|m] eqn:Hp; cbn [res_bind map_err].
      * destruct (String.eqb_spec (out_icon o) "") as [E|Hne]; cbn [negb].
        -- cbn [res_bind]. destruct (_ && _); discriminate.
        -- destruct (set_icon _ _) as [wd|e'] eqn:Hs; cbn [res_bind].
           ++ destruct (_ && _); discriminate.
           ++ intros H. inversion H; subst.
              split; [reflexivity|right]. exists o. auto.
      * intros H. inversion H; subst.
        split; [reflexivity|left]. exists m. auto.
    + cbn [res_bind]. destruct (_ && _); discriminate.
  - intros b st1 st2 out. reflexivity.
Qed.

Definition c1_icon_parse (s : string) : result Output string :=
  Ok (mkOutput "bat" Critical "5%").

Definition c1_icon_missing (w : TextWidget) (i : string) : result TextWidget Error :=
  Err (BlockError "custom" "icon not found").

Definition c1_json_world : World :=
  mkWorld (Custom.mk 0 OnDemand (Some "x") None None None true false "sh")
          (mkChannel true []) [].

(** Witness of C1: JSON off, a parse failure and a missing icon. *)
Lemma C1_render_errors_only_from_json_witness :
  (exists ws, snd (Block.render c1_parse c1_set_icon c1_exec
                    (mkWorld c1_block (mkChannel true []) [])) = Ok ws) /\
  snd (Block.render c1_parse c1_set_icon c1_exec c1_json_world)
  = Err (BlockError "custom" ("Error parsing JSON: " ++ "expected value")) /\
  snd (Block.render c1_icon_parse c1_icon_missing c1_exec c1_json_world)
  = Err (BlockError "custom" "icon not found").
Proof.
  split; [|split].
  - apply (C1_render_errors_only_from_json c1_parse c1_set_icon c1_exec
             (mkWorld c1_block (mkChannel true []) [])).
    reflexivity.
  - apply (C1_render_errors_only_from_json c1_parse c1_set_icon c1_exec
             c1_json_world); reflexivity.
  - destruct (C1_render_errors_only_from_json c1_icon_parse c1_icon_missing
                c1_exec c1_json_world) as (_ & _ & H & _).
    apply (H eq_refl (mkOutput "bat" Critical "5%")); [reflexivity|discriminate|].
    reflexivity.
Defined.

(** ** C2 *)

Lemma new_fields valid_signal i cfg b :
  ConfigBlock.new valid_signal i cfg = Ok b ->
  b.(Custom.id) = i /\ b.(Custom.signal) = cfg.(cfg_signal) /\
  b.(Custom.update_interval) = cfg.(cfg_interval) /\
  b.(Custom.on_click) = None.
Proof.
  destruct cfg as [iv cmd cyc sg js hw sh].
  unfold ConfigBlock.new, ConfigBlock.convert_to_valid_signal; simpl.
  destruct sg as [s|]; [destruct (valid_signal s)|]; simpl;
    [| discriminate |];
    destruct cyc, cmd; simpl; intros H; inversion H; subst; auto.
Qed.

Definition c2_config : CustomConfig :=
  mkCustomConfig OnDemand (Some "date") None (Some 5%Z) false false "sh".

Definition c2_valid (s : Z) : bool := Z.leb 0 s && Z.leb s 30.

(** Claim C2, counterexample: the block was built with signal 5 and
    signal 5 arrives, but the scheduler's end of the channel is gone: the
    send fails and nothing is enqueued. *)
Lemma C2_closed_channel_enqueues_nothing :
  match ConfigBlock.new c2_valid 4 c2_config with
  | Ok b =>
      Block.signal 5 100%Z (mkWorld b (mkChannel false []) [])
      = (mkWorld b (mkChannel false []) [], Err send_error)
  | Err _ => False
  end.
Proof. vm_compute. reflexivity. Qed.

(** Claim C2 (as amended): for a block built by [new], a delivered signal
    [n] equal to the configured one enqueues exactly one request carrying
    the block's id and the current time when the channel is open; when the
    channel is closed it enqueues nothing and returns the channel error;
    any other signal leaves everything unchanged and returns [Ok]. *)
Theorem C2_signal_requests_iff_configured valid_signal i cfg w n now :
  ConfigBlock.new valid_signal i cfg = Ok w.(blk) ->
  (cfg.(cfg_signal) = Some n -> w.(chan).(chan_open) = true ->
   Block.signal n now w = (push_task w (mkTask i now), Ok tt)) /\
  (cfg.(cfg_signal) = Some n -> w.(chan).(chan_open) = false ->
   Block.signal n now w = (w, Err send_error)) /\
  (cfg.(cfg_signal) <> Some n -> Block.signal n now w = (w, Ok tt)).
Proof.
  intros Hnew.
  destruct (new_fields _ _ _ _ Hnew) as (Hid & Hsig & _).
  rewrite signal_eq, Hsig, Hid.
  split; [|split].
  - intros Hs Ho; rewrite Hs, Z.eqb_refl.
    unfold send; rewrite Ho; reflexivity.
  - intros Hs Ho; rewrite Hs, Z.eqb_refl.
    unfold send; rewrite Ho; reflexivity.
  - intros Hs. destruct (cfg_signal cfg) as [s|]; [|reflexivity].
    destruct (Z.eqb_spec s n); [subst; contradiction|reflexivity].
Qed.

Definition c2_world (open : bool) : World :=
  match ConfigBlock.new c2_valid 4 c2_config with
  | Ok b => mkWorld b (mkChannel open []) []
  | Err _ => mkWorld c1_block (mkChannel open []) []
  end.

(** Witness of C2: the block built with signal 5 receives signals 5 and 7. *)
Lemma C2_signal_requests_iff_configured_witness :
  Block.signal 5 100%Z (c2_world true)
  = (push_task (c2_world true) (mkTask 4 100%Z), Ok tt) /\
  Block.signal 5 100%Z (c2_world false) = (c2_world false, Err send_error) /\
  Block.signal 7 100%Z (c2_world true) = (c2_world true, Ok tt).
Proof.
  split; [|split].
  - apply (C2_signal_requests_iff_configured c2_valid 4 c2_config (c2_world true));
      reflexivity.
  - apply (C2_signal_requests_iff_configured c2_valid 4 c2_config (c2_world false));
      reflexivity.
  - apply (C2_signal_requests_iff_configured c2_valid 4 c2_config (c2_world true)).
    + reflexivity.
    + discriminate.
Defined.

(** ** Clicks *)

(** [click] step by step: run [on_click] if any, advance the cycle if
    any, then request a re-render when either happened. *)
Lemma click_eq spawn now w :
  Block.click spawn now w =
  let b := w.(blk) in
  let w1 := match b.(Custom.on_click) with
            | Some oc =>
                mkWorld b w.(chan)
                  (w.(procs) ++ [mkCommand b.(Custom.shell) ["-c"; oc]])
            | None => w
            end in
  let w2 := match b.(Custom.cycle) with
            | Some c =>
                mkWorld (Custom.with_cycle b (Some (cycle_next c)))
                  w1.(chan) w1.(procs)
            | None => w1
            end in
  if is_some b.(Custom.on_click) || is_some b.(Custom.cycle)
  then send (mkTask b.(Custom.id) now) w2
  else (w2, Ok tt).
Proof.
  destruct w as [[i iv cmd oc cyc sg js hw sh] ch ps]; simpl.
  destruct oc, cyc; reflexivity.
Qed.

(** ** C3 *)

Definition c3_block (open : bool) : World :=
  mkWorld (Custom.mk 2 OnDemand (Some "date") (Some "notify-send hi") None None
                     false false "sh")
          (mkChannel open []) [].

Definition c3_spawn (c : Command) : result unit IoError := Ok tt.

(** Claim C3, counterexample: the block has an [on_click] command, but
    the channel's receiver is gone: the click enqueues no request and
    returns the channel error. *)
Lemma C3_closed_channel_enqueues_nothing :
  (fst (Block.click c3_spawn 50%Z (c3_block false))).(chan).(chan_queue) = [] /\
  snd (Block.click c3_spawn 50%Z (c3_block false)) = Err send_error.
Proof. split; reflexivity. Qed.

(** Claim C3 (as amended): with an [on_click] command or a cycle and an
    open channel, a click enqueues exactly one request carrying the
    block's id and the current time and returns [Ok]; with a closed
    channel it enqueues nothing and returns the channel error; with
    neither configured it changes nothing and returns [Ok]. *)
Theorem C3_click_requests_iff_action spawn now w :
  let w' := fst (Block.click spawn now w) in
  let r := snd (Block.click spawn now w) in
  (is_some w.(blk).(Custom.on_click) || is_some w.(blk).(Custom.cycle) = true ->
   w.(chan).(chan_open) = true ->
   w'.(chan).(chan_queue) = (w.(chan).(chan_queue) ++ [mkTask w.(blk).(Custom.id) now])%list /\
   r = Ok tt) /\
  (is_some w.(blk).(Custom.on_click) || is_some w.(blk).(Custom.cycle) = true ->
   w.(chan).(chan_open) = false ->
   w'.(chan) = w.(chan) /\ r = Err send_error) /\
  (w.(blk).(Custom.on_click) = None -> w.(blk).(Custom.cycle) = None ->
   Block.click spawn now w = (w, Ok tt)).
Proof.
  intros w' r; subst w' r; rewrite click_eq; cbv zeta.
  destruct w as [b [op q] ps]; simpl.
  destruct (Custom.on_click b), (Custom.cycle b); simpl;
    repeat split; intros; try discriminate; unfold send in *; simpl in *;
    subst; simpl; reflexivity.
Qed.

(** Witness of C3: a block with [on_click] clicked with the channel open
    and closed, and a block with neither action. *)
Lemma C3_click_requests_iff_action_witness :
  (fst (Block.click c3_spawn 50%Z (c3_block true))).(chan).(chan_queue)
    = [mkTask 2 50%Z] /\
  (fst (Block.click c3_spawn 50%Z (c3_block false))).(chan) = mkChannel false [] /\
  Block.click c3_spawn 50%Z (mkWorld c1_block (mkChannel true []) [])
    = (mkWorld c1_block (mkChannel true []) [], Ok tt).
Proof.
  split; [|split].
  - apply (C3_click_requests_iff_action c3_spawn 50%Z (c3_block true));
      reflexivity.
  - apply (C3_click_requests_iff_action c3_spawn 50%Z (c3_block false));
      reflexivity.
  - apply (C3_click_requests_iff_action c3_spawn 50%Z
             (mkWorld c1_block (mkChannel true []) [])); reflexivity.
Defined.

(** ** C7 *)

Definition c7_spawn_fails (c : Command) : result unit IoError :=
  Err (IoOs 2 "No such file or directory").

(** Claim C7, counterexample: launching the [on_click] program fails,
    yet [click] returns [Ok]: the launch error is not surfaced. *)
Lemma C7_spawn_error_not_surfaced :
  snd (Block.click c7_spawn_fails 50%Z (c3_block true)) = Ok tt.
Proof. reflexivity. Qed.

(** Claim C7 (as amended): an error launching the [on_click] program is
    discarded (the outcome of the launch changes nothing in what [click]
    does or returns); an error sending the re-render request is returned
    in [click]'s result, and it is the only error [click] returns. *)
Theorem C7_click_errors spawn1 spawn2 now w :
  Block.click spawn1 now w = Block.click spawn2 now w /\
  (is_some w.(blk).(Custom.on_click) || is_some w.(blk).(Custom.cycle) = true ->
   w.(chan).(chan_open) = false ->
   snd (Block.click spawn1 now w) = Err send_error) /\
  (forall e, snd (Block.click spawn1 now w) = Err e -> e = send_error).
Proof.
  rewrite !click_eq; cbv zeta.
  destruct w as [b [op q] ps]; simpl.
  split; [reflexivity|].
  destruct (Custom.on_click b), (Custom.cycle b); simpl; unfold send; simpl;
    destruct op; simpl; split; intros; try discriminate;
    try match goal with H : Err _ = Err _ |- _ => inversion H end; auto.
Qed.

(** Witness of C7: the failing launch on a closed channel. *)
Lemma C7_click_errors_witness :
  snd (Block.click c7_spawn_fails 50%Z (c3_block false)) = Err send_error.
Proof.
  apply (C7_click_errors c7_spawn_fails c3_spawn 50%Z (c3_block false));
    reflexivity.
Defined.

(** ** C9 *)

(** Claim C9: for a block with a cycle, [render] runs the command the
    cycle is at and leaves the block's state alone, so two renders in a
    row run the same command; a click moves the cycle on by exactly one. *)
Theorem C9_render_peeks_click_advances parse_output set_icon exec1 exec2
  spawn now w items pos :
  w.(blk).(Custom.cycle) = Some (mkCycle items pos) ->
  Block.render_command w.(blk)
    = mkCommand w.(blk).(Custom.shell)
        ["-c"; match cycle_peek (mkCycle items pos) with
               | Some s => s | None => "" end] /\
  (let w1 := fst (Block.render parse_output set_icon exec1 w) in
   let w2 := fst (Block.render parse_output set_icon exec2 w1) in
   w2.(blk) = w.(blk) /\
   w2.(procs) = (w.(procs) ++ [Block.render_command w.(blk);
                               Block.render_command w.(blk)])%list) /\
  (fst (Block.click spawn now w)).(blk).(Custom.cycle)
    = Some (mkCycle items (S pos)).
Proof.
  intros Hc. split; [|split].
  - unfold Block.render_command, Block.command_str. rewrite Hc. reflexivity.
  - cbv zeta. rewrite !render_eq; simpl.
    split; [reflexivity|]. rewrite <- app_assoc. reflexivity.
  - rewrite click_eq; cbv zeta. rewrite Hc.
    destruct w as [b ch ps]; simpl in *.
    destruct (Custom.on_click b); simpl; unfold send; simpl;
      destruct (chan_open ch); reflexivity.
Qed.

Definition c9_world : World :=
  mkWorld (Custom.mk 1 OnDemand None None (Some (mkCycle ["echo a"; "echo b"] 0))
                     None false false "sh")
          (mkChannel true []) [].

(** Witness of C9: a two-command cycle at its start. *)
Lemma C9_render_peeks_click_advances_witness :
  Block.render_command c9_world.(blk) = mkCommand "sh" ["-c"; "echo a"] /\
  (fst (Block.click c3_spawn 0%Z c9_world)).(blk).(Custom.cycle)
    = Some (mkCycle ["echo a"; "echo b"] 1).
Proof.
  destruct (C9_render_peeks_click_advances c1_parse c1_set_icon c1_exec c1_exec
              c3_spawn 0%Z c9_world ["echo a"; "echo b"] 0 eq_refl)
    as (H1 & _ & H3).
  split; [exact H1 | exact H3].
Defined.

(** ** C4 *)

(** Claim C4: a successful [render] returns no widget exactly when the
    produced text is empty and [hide_when_empty] is set, and otherwise one
    widget carrying that text. *)
Theorem C4_render_widgets parse_output set_icon exec w ws :
  snd (Block.render parse_output set_icon exec w) = Ok ws ->
  exists widget text,
    Block.render_text parse_output set_icon w.(blk)
      (exec (Block.render_command w.(blk))) = Ok (widget, text) /\
    ((text = "" /\ w.(blk).(Custom.hide_when_empty) = true /\ ws = []) \/
     (~ (text = "" /\ w.(blk).(Custom.hide_when_empty) = true) /\
      ws = [set_text widget text] /\ (set_text widget text).(w_text) = text)).
Proof.
  rewrite render_eq; simpl. unfold Block.render_output.
  destruct (Block.render_text _ _ _ _) as [[widget text]|e]; simpl;
    [|discriminate].
  intros H. exists widget, text. split; [reflexivity|].
  destruct (String.eqb_spec text ""), (Custom.hide_when_empty (blk w));
    simpl in H; inversion H; subst; [left; auto|right..];
    repeat split; try reflexivity; intros [? ?]; congruence.
Qed.

(** Witness of C4: the block of C1 renders [boom]. *)
Lemma C4_render_widgets_witness :
  exists widget text,
    Block.render_text c1_parse c1_set_icon c1_block
      (c1_exec (Block.render_command c1_block)) = Ok (widget, text) /\
    ((text = "" /\ c1_block.(Custom.hide_when_empty) = true /\
      [mkTextWidget 0 0 "boom" None Idle] = []) \/
     (~ (text = "" /\ c1_block.(Custom.hide_when_empty) = true) /\
      [mkTextWidget 0 0 "boom" None Idle] = [set_text widget text] /\
      (set_text widget text).(w_text) = text)).
Proof.
  apply (C4_render_widgets c1_parse c1_set_icon c1_exec
           (mkWorld c1_block (mkChannel true []) [])).
  vm_compute. reflexivity.
Defined.

(** ** C5 *)

(** Claim C5: a configuration with both [command] and [cycle] is
    rejected by [new]. *)
Theorem C5_command_and_cycle_rejected valid_signal i cfg :
  is_some cfg.(cfg_command) = true -> is_some cfg.(cfg_cycle) = true ->
  exists e, ConfigBlock.new valid_signal i cfg = Err e.
Proof.
  destruct cfg as [iv [cmd|] [cyc|] sg js hw sh]; simpl; try discriminate.
  intros _ _. unfold ConfigBlock.new, ConfigBlock.convert_to_valid_signal; simpl.
  destruct sg as [s|]; [destruct (valid_signal s)|]; simpl; eexists; reflexivity.
Qed.

Definition c5_config : CustomConfig :=
  mkCustomConfig OnDemand (Some "date") (Some ["a"; "b"]) (Some 5%Z) false false "sh".

(** Witness of C5. *)
Lemma C5_command_and_cycle_rejected_witness :
  exists e, ConfigBlock.new c2_valid 0 c5_config = Err e.
Proof. apply C5_command_and_cycle_rejected; reflexivity. Defined.

(** ** C6 *)

(** Claim C6, counterexample: signal 5 is in range, yet construction
    fails because the configuration also sets both [command] and
    [cycle]. *)
Lemma C6_in_range_signal_rejected :
  c2_valid 5 = true /\ is_ok (ConfigBlock.new c2_valid 0 c5_config) = false.
Proof. split; reflexivity. Qed.

(** Claim C6 (as amended): an out-of-range [signal] makes [new] fail; an
    in-range one, in a configuration that does not set both [command] and
    [cycle], gives a block subscribed to that signal. *)
Theorem C6_signal_validation valid_signal i cfg s :
  cfg.(cfg_signal) = Some s ->
  (valid_signal s = false -> exists e, ConfigBlock.new valid_signal i cfg = Err e) /\
  (valid_signal s = true ->
   is_some cfg.(cfg_command) && is_some cfg.(cfg_cycle) = false ->
   exists b, ConfigBlock.new valid_signal i cfg = Ok b /\
             b.(Custom.signal) = Some s).
Proof.
  destruct cfg as [iv cmd cyc sg js hw sh]; simpl. intros ->.
  unfold ConfigBlock.new, ConfigBlock.convert_to_valid_signal; simpl.
  split.
  - intros ->. eexists; reflexivity.
  - intros -> Hx. simpl.
    destruct cyc, cmd; simpl in *; try discriminate; eexists; split;
      reflexivity.
Qed.

(** Witness of C6: signals 40 (out of range) and 5 (in range). *)
Lemma C6_signal_validation_witness :
  (exists e, ConfigBlock.new c2_valid 0
               (mkCustomConfig OnDemand None None (Some 40%Z) false false "sh")
             = Err e) /\
  (exists b, ConfigBlock.new c2_valid 0 c2_config = Ok b /\
             b.(Custom.signal) = Some 5%Z).
Proof.
  split.
  - apply (C6_signal_validation c2_valid 0
             (mkCustomConfig OnDemand None None (Some 40%Z) false false "sh") 40%Z);
      reflexivity.
  - apply (C6_signal_validation c2_valid 0 c2_config 5%Z); reflexivity.
Defined.

(** ** C8 *)

Lemma send_blk t w : (fst (send t w)).(blk) = w.(blk).
Proof. unfold send; destruct (chan_open (chan w)); reflexivity. Qed.

Lemma run_op_update_interval parse_output set_icon op w :
  (run_op parse_output set_icon op w).(blk).(Custom.update_interval)
  = w.(blk).(Custom.update_interval).
Proof.
  destruct op as [exec|spawn now|n now]; unfold run_op.
  - rewrite render_eq. reflexivity.
  - rewrite click_eq; cbv zeta.
    destruct w as [b ch ps]; simpl.
    destruct (Custom.on_click b), (Custom.cycle b); simpl;
      try rewrite send_blk; reflexivity.
  - rewrite signal_eq.
    destruct (Custom.signal (blk w)) as [sig|]; [destruct (Z.eqb sig n)|];
      try rewrite send_blk; reflexivity.
Qed.

Lemma run_ops_update_interval parse_output set_icon ops w :
  (run_ops parse_output set_icon ops w).(blk).(Custom.update_interval)
  = w.(blk).(Custom.update_interval).
Proof.
  revert w. induction ops as [|op ops IH]; intros w; simpl.
  - reflexivity.
  - rewrite IH. apply run_op_update_interval.
Qed.

(** Claim C8: [update_interval] of a block built by [new] is the
    configured interval, and stays so after any sequence of [render],
    [click] and [signal] calls, whatever their outcomes. *)
Theorem C8_update_interval_fixed valid_signal i cfg parse_output set_icon ops w :
  ConfigBlock.new valid_signal i cfg = Ok w.(blk) ->
  Block.update_interval (run_ops parse_output set_icon ops w).(blk)
  = cfg.(cfg_interval).
Proof.
  intros Hnew.
  destruct (new_fields _ _ _ _ Hnew) as (_ & _ & Hiv & _).
  unfold Block.update_interval. rewrite run_ops_update_interval. exact Hiv.
Qed.

(** Witness of C8: the block of C2 after a click, a signal and a render. *)
Lemma C8_update_interval_fixed_witness :
  Block.update_interval
    (run_ops c1_parse c1_set_icon
       [OClick c3_spawn 1%Z; OSignal 5 2%Z; ORender c1_exec] (c2_world true)).(blk)
  = OnDemand.
Proof.
  apply (C8_update_interval_fixed c2_valid 4 c2_config); reflexivity.
Defined.

(** ** C10 *)

(** Claim C10: with JSON parsing off, when the OS cannot run the shell
    command, [render] still succeeds with one widget showing the error's
    message. *)
Theorem C10_os_error_rendered parse_output set_icon exec w code detail :
  w.(blk).(Custom.json) = false ->
  exec (Block.render_command w.(blk)) = Err (IoOs code detail) ->
  snd (Block.render parse_output set_icon exec w)
  = Ok [set_text (text_widget_new w.(blk).(Custom.id) 0)
                 (io_error_to_string (IoOs code detail))].
Proof.
  intros Hj He. rewrite render_eq; cbn [snd blk].
  unfold Block.render_output, Block.render_text. rewrite Hj, He.
  cbn [res_bind Block.raw_output].
  destruct (String.eqb_spec (io_error_to_string (IoOs code detail)) "") as [Hm|_].
  - exfalso. exact (io_os_message_nonempty _ _ Hm).
  - reflexivity.
Qed.

Definition c10_exec (c : Command) : result ProcOutput IoError :=
  Err (IoOs 2 "No such file or directory").

(** Witness of C10: the shell does not exist. *)
Lemma C10_os_error_rendered_witness :
  snd (Block.render c1_parse c1_set_icon c10_exec
         (mkWorld c1_block (mkChannel true []) []))
  = Ok [set_text (text_widget_new 0 0)
                 (io_error_to_string (IoOs 2 "No such file or directory"))].
Proof.
  apply (C10_os_error_rendered c1_parse c1_set_icon c10_exec
           (mkWorld c1_block (mkChannel true []) [])); reflexivity.
Defined.

(** * Further properties of the block *)

(** ** Sequences of operations: what changes and what does not *)

Definition count_clicks (ops : list Op) : nat :=
  length (filter (fun op => match op with OClick _ _ => true | _ => false end) ops).

Definition count_events (ops : list Op) : nat :=
  length (filter (fun op => match op with ORender _ => false | _ => true end) ops).

(** The block after a sequence of operations: its cycle, if any, moved on
    by [k] positions. *)
Definition advance_cycle (b : Custom.t) (k : nat) : Custom.t :=
  match b.(Custom.cycle) with
  | Some c => Custom.with_cycle b (Some (mkCycle c.(cyc_items) (c.(cyc_pos) + k)))
  | None => b
  end.

Lemma advance_cycle_0 b : advance_cycle b 0 = b.
Proof.
  destruct b as [i iv cmd oc [[items pos]|] sg js hw sh]; unfold advance_cycle;
    simpl; rewrite ?Nat.add_0_r; reflexivity.
Qed.

Lemma click_blk spawn now w :
  (fst (Block.click spawn now w)).(blk) = advance_cycle w.(blk) 1.
Proof.
  rewrite click_eq; cbv zeta.
  destruct w as [[i iv cmd oc cyc sg js hw sh] ch ps]; unfold advance_cycle; simpl.
  destruct oc, cyc as [[items pos]|]; simpl; unfold send; simpl;
    destruct (chan_open ch); simpl; rewrite ?Nat.add_1_r; reflexivity.
Qed.

Lemma signal_blk n now w : (fst (Block.signal n now w)).(blk) = w.(blk).
Proof.
  rewrite signal_eq. destruct (Custom.signal (blk w)) as [sig|];
    [destruct (Z.eqb sig n)|]; try rewrite send_blk; reflexivity.
Qed.

Lemma advance_cycle_add b j k :
  advance_cycle (advance_cycle b j) k = advance_cycle b (j + k).
Proof.
  destruct b as [i iv cmd oc [[items pos]|] sg js hw sh]; unfold advance_cycle;
    simpl; rewrite ?Nat.add_assoc; reflexivity.
Qed.

Lemma run_op_blk parse_output set_icon op w :
  (run_op parse_output set_icon op w).(blk)
  = advance_cycle w.(blk) (count_clicks [op]).
Proof.
  destruct op as [exec|spawn now|n now]; unfold run_op.
  - rewrite render_eq. change (count_clicks [ORender exec]) with 0.
    rewrite advance_cycle_0. reflexivity.
  - apply click_blk.
  - rewrite signal_blk. change (count_clicks [OSignal n now]) with 0.
    rewrite advance_cycle_0. reflexivity.
Qed.

(** Every field of the block but the cycle position is left as it was by
    any sequence of [render], [click] and [signal] calls, and the cycle
    position has moved on by exactly the number of clicks. *)
Theorem X_run_ops_block_frame parse_output set_icon ops w :
  (run_ops parse_output set_icon ops w).(blk)
  = advance_cycle w.(blk) (count_clicks ops).
Proof.
  revert w. induction ops as [|op ops IH]; intros w; simpl.
  - symmetry. apply advance_cycle_0.
  - rewrite IH, run_op_blk, advance_cycle_add. f_equal.
    unfold count_clicks; simpl. destruct op; reflexivity.
Qed.

(** What a step does to the channel and to the process log. *)
Definition grows_by (i : nat) (n : nat) (w w' : World) : Prop :=
  w'.(chan).(chan_open) = w.(chan).(chan_open) /\
  (exists ts, w'.(chan).(chan_queue) = (w.(chan).(chan_queue) ++ ts)%list /\
              Forall (fun t => t.(task_id) = i) ts /\
              length ts <= n) /\
  (exists cs, w'.(procs) = (w.(procs) ++ cs)%list).

Lemma grows_by_refl b w : grows_by b 0 w w.
Proof.
  split; [reflexivity|split].
  - exists []; rewrite app_nil_r; auto.
  - exists []; rewrite app_nil_r; reflexivity.
Qed.

Lemma grows_by_trans b n m w1 w2 w3 :
  grows_by b n w1 w2 -> grows_by b m w2 w3 -> grows_by b (n + m) w1 w3.
Proof.
  intros (Ho1 & (ts1 & Hq1 & Hf1 & Hl1) & (cs1 & Hp1))
         (Ho2 & (ts2 & Hq2 & Hf2 & Hl2) & (cs2 & Hp2)).
  split; [congruence|split].
  - exists (ts1 ++ ts2)%list. rewrite Hq2, Hq1, app_assoc.
    split; [reflexivity|split].
    + apply Forall_app; auto.
    + rewrite length_app. lia.
  - exists (cs1 ++ cs2)%list. rewrite Hp2, Hp1, app_assoc. reflexivity.
Qed.

Lemma send_grows i t w :
  t.(task_id) = i -> grows_by i 1 w (fst (send t w)).
Proof.
  intros Ht. unfold send.
  destruct (chan_open (chan w)) eqn:Ho; simpl.
  - split; [auto|split].
    + exists [t]; repeat split; auto.
    + exists []; rewrite app_nil_r; reflexivity.
  - split; [auto|split].
    + exists []; rewrite app_nil_r; repeat split; auto.
    + exists []; rewrite app_nil_r; reflexivity.
Qed.

Lemma grows_by_weaken i n m w w' : n <= m -> grows_by i n w w' -> grows_by i m w w'.
Proof.
  intros Hnm (Ho & (ts & Hq & Hf & Hl) & Hp).
  split; [auto|split; [exists ts; repeat split; auto; lia|auto]].
Qed.

Lemma advance_cycle_id b k : (advance_cycle b k).(Custom.id) = b.(Custom.id).
Proof. destruct b as [i iv cmd oc [c|] sg js hw sh]; reflexivity. Qed.

Lemma run_op_grows parse_output set_icon op w :
  grows_by w.(blk).(Custom.id) (count_events [op]) w
           (run_op parse_output set_icon op w).
Proof.
  destruct op as [exec|spawn now|n now]; unfold run_op.
  - rewrite render_eq; simpl.
    split; [reflexivity|split].
    + exists []; rewrite app_nil_r; repeat split; auto.
    + eexists; reflexivity.
  - rewrite click_eq; cbv zeta.
    change (count_events [OClick spawn now]) with 1.
    destruct w as [b ch ps]; simpl.
    destruct (Custom.on_click b) as [oc|], (Custom.cycle b) as [c|]; simpl;
      try (eapply (grows_by_trans _ 0 1); [|apply send_grows; reflexivity]);
      (split; [reflexivity|split;
         [exists []; rewrite app_nil_r; repeat split; auto
         |eexists; first [reflexivity | symmetry; apply app_nil_r]]]).
  - rewrite signal_eq.
    change (count_events [OSignal n now]) with 1.
    destruct (Custom.signal (blk w)) as [sig|]; [destruct (Z.eqb sig n)|];
      try (apply send_grows; reflexivity);
      apply (grows_by_weaken _ 0); auto; apply grows_by_refl.
Qed.

(** A sequence of [render], [click] and [signal] calls never closes or
    reopens the re-render channel, never removes a queued request, only
    appends requests that carry the block's own id, at most one per click
    or signal (renders append none), and only appends to the log of
    commands run. *)
Theorem X_run_ops_channel_effects parse_output set_icon ops w :
  grows_by w.(blk).(Custom.id) (count_events ops) w
           (run_ops parse_output set_icon ops w).
Proof.
  revert w. induction ops as [|op ops IH]; intros w; simpl.
  - apply grows_by_refl.
  - replace (count_events (op :: ops)) with (count_events [op] + count_events ops)
      by (unfold count_events; simpl; destruct op; reflexivity).
    eapply grows_by_trans; [apply run_op_grows|].
    specialize (IH (run_op parse_output set_icon op w)).
    rewrite run_op_blk, advance_cycle_id in IH. exact IH.
Qed.

(** ** Construction *)

(** [new] either fails or builds the block straight from the
    configuration: no [on_click] yet, a cycle at its first command when
    one is configured; and it never builds a block with both a [command]
    and a [cycle]. *)
Theorem X_new_result valid_signal i cfg b :
  ConfigBlock.new valid_signal i cfg = Ok b ->
  b = Custom.mk i cfg.(cfg_interval) cfg.(cfg_command) None
        (option_map (fun l => mkCycle l 0) cfg.(cfg_cycle)) cfg.(cfg_signal)
        cfg.(cfg_json) cfg.(cfg_hide_when_empty) cfg.(cfg_shell) /\
  (cfg.(cfg_command) = None \/ cfg.(cfg_cycle) = None).
Proof.
  destruct cfg as [iv cmd cyc sg js hw sh].
  unfold ConfigBlock.new, ConfigBlock.convert_to_valid_signal; simpl.
  destruct sg as [s|]; [destruct (valid_signal s) eqn:Hv|]; simpl;
    [| discriminate |];
    destruct cyc, cmd; simpl; intros H; inversion H; subst; auto.
Qed.

(** Witness of [X_new_result]: the configuration of C2. *)
Lemma X_new_result_witness :
  exists b, ConfigBlock.new c2_valid 4 c2_config = Ok b /\
  b = Custom.mk 4 OnDemand (Some "date") None None (Some 5%Z) false false "sh" /\
  (Some "date" = None \/ @None (list string) = None).
Proof.
  eexists. split; [reflexivity|].
  apply (X_new_result c2_valid 4 c2_config). reflexivity.
Defined.

(** The default configuration is always accepted: it gives a block
    refreshed every 10 seconds, with no command, cycle, signal or JSON
    parsing, on the [SHELL] of the environment or [sh], and that block
    renders the empty shell command. *)
Theorem X_default_config_accepted valid_signal i shell_env :
  let sh := match shell_env with Some s => s | None => "sh" end in
  ConfigBlock.new valid_signal i (default_config shell_env)
  = Ok (Custom.mk i (Every 10000) None None None None false false sh) /\
  Block.render_command (Custom.mk i (Every 10000) None None None None false false sh)
  = mkCommand sh ["-c"; ""].
Proof. split; reflexivity. Qed.

(** An out-of-range [signal] is reported before the [command]/[cycle]
    conflict: [new] returns the configuration error whatever else the
    configuration sets. *)
Theorem X_new_signal_error_first valid_signal i cfg s :
  cfg.(cfg_signal) = Some s -> valid_signal s = false ->
  ConfigBlock.new valid_signal i cfg
  = Err (ConfigurationError "A provided signal was out of bounds").
Proof.
  destruct cfg as [iv cmd cyc sg js hw sh]; simpl; intros -> Hv.
  unfold ConfigBlock.new, ConfigBlock.convert_to_valid_signal; simpl.
  rewrite Hv. reflexivity.
Qed.

(** Witness of [X_new_signal_error_first]: signal 40 with both [command]
    and [cycle]. *)
Lemma X_new_signal_error_first_witness :
  ConfigBlock.new c2_valid 0
    (mkCustomConfig OnDemand (Some "date") (Some ["a"]) (Some 40%Z) false false "sh")
  = Err (ConfigurationError "A provided signal was out of bounds").
Proof. apply (X_new_signal_error_first c2_valid 0 _ 40%Z); reflexivity. Defined.

(** ** The cycle *)

(** For a block built with [cycle = items], after any sequence of
    operations [render] runs the command at position
    [(number of clicks) mod (length items)]: the cycle wraps around, and
    with an empty list it runs the empty command. *)
Theorem X_cycle_command_after_ops valid_signal i cfg items parse_output set_icon ops w :
  ConfigBlock.new valid_signal i cfg = Ok w.(blk) ->
  cfg.(cfg_cycle) = Some items ->
  Block.render_command (run_ops parse_output set_icon ops w).(blk)
  = mkCommand cfg.(cfg_shell)
      ["-c"; nth (count_clicks ops mod length items) items ""].
Proof.
  intros Hnew Hcyc.
  destruct (X_new_result _ _ _ _ Hnew) as [Hb _].
  rewrite X_run_ops_block_frame, Hb, Hcyc.
  unfold advance_cycle, Block.render_command, Block.command_str, cycle_peek.
  cbn [Custom.cycle option_map cyc_items cyc_pos Custom.shell Custom.with_cycle].
  destruct items as [|x xs].
  - destruct (count_clicks ops mod length (@nil string)), (count_clicks ops);
      reflexivity.
  - rewrite (nth_error_nth' _ "").
    + reflexivity.
    + apply Nat.mod_upper_bound. discriminate.
Qed.

Definition x_cycle_config : CustomConfig :=
  mkCustomConfig OnDemand None (Some ["echo a"; "echo b"]) None false false "sh".

Definition x_cycle_world : World :=
  match ConfigBlock.new c2_valid 1 x_cycle_config with
  | Ok b => mkWorld b (mkChannel true []) []
  | Err _ => mkWorld c1_block (mkChannel true []) []
  end.

(** Witness of [X_cycle_command_after_ops]: three clicks on a two-command
    cycle land on the second command. *)
Lemma X_cycle_command_after_ops_witness :
  Block.render_command
    (run_ops c1_parse c1_set_icon
       [OClick c3_spawn 1%Z; ORender c1_exec; OClick c3_spawn 2%Z;
        OSignal 3 3%Z; OClick c3_spawn 4%Z] x_cycle_world).(blk)
  = mkCommand "sh" ["-c"; "echo b"].
Proof.
  apply (X_cycle_command_after_ops c2_valid 1 x_cycle_config ["echo a"; "echo b"]
           c1_parse c1_set_icon
           [OClick c3_spawn 1%Z; ORender c1_exec; OClick c3_spawn 2%Z;
            OSignal 3 3%Z; OClick c3_spawn 4%Z] x_cycle_world); reflexivity.
Defined.

(** ** Clicks launch the [on_click] command and nothing else *)

(** A click runs the block's [on_click] command through its shell
    ([shell -c on_click]) exactly once when there is one, and runs no other
    command: neither the block's [command] nor its cycle's. *)
Theorem X_click_runs_on_click spawn now w :
  (fst (Block.click spawn now w)).(procs)
  = (w.(procs) ++ match w.(blk).(Custom.on_click) with
                  | Some oc => [mkCommand w.(blk).(Custom.shell) ["-c"; oc]]
                  | None => []
                  end)%list.
Proof.
  rewrite click_eq; cbv zeta.
  destruct w as [b ch ps]; simpl.
  destruct (Custom.on_click b), (Custom.cycle b); simpl; unfold send; simpl;
    destruct (chan_open ch); simpl; rewrite ?app_nil_r; reflexivity.
Qed.

(** Once the configuration layer has set [on_click] through
    [override_on_click], a click with the channel open runs that command,
    enqueues one request for the block and returns [Ok]. *)
Theorem X_override_on_click_click b oc spawn now ch ps :
  ch.(chan_open) = true ->
  let w := mkWorld (ConfigBlock.override_on_click b (Some oc)) ch ps in
  (fst (Block.click spawn now w)).(procs)
    = (ps ++ [mkCommand b.(Custom.shell) ["-c"; oc]])%list /\
  (fst (Block.click spawn now w)).(chan).(chan_queue)
    = (ch.(chan_queue) ++ [mkTask b.(Custom.id) now])%list /\
  snd (Block.click spawn now w) = Ok tt.
Proof.
  intros Ho w. subst w.
  rewrite click_eq; cbv zeta.
  destruct b as [i iv cmd oc0 [c|] sg js hw sh]; simpl;
    unfold send; simpl; rewrite Ho; simpl; repeat split; reflexivity.
Qed.

(** Witness of [X_override_on_click_click]. *)
Lemma X_override_on_click_click_witness :
  let w := mkWorld (ConfigBlock.override_on_click c1_block (Some "pavucontrol"))
                   (mkChannel true []) [] in
  (fst (Block.click c3_spawn 9%Z w)).(procs)
    = ([] ++ [mkCommand "sh" ["-c"; "pavucontrol"]])%list /\
  (fst (Block.click c3_spawn 9%Z w)).(chan).(chan_queue)
    = ([] ++ [mkTask 0 9%Z])%list /\
  snd (Block.click c3_spawn 9%Z w) = Ok tt.
Proof.
  apply (X_override_on_click_click c1_block "pavucontrol" c3_spawn 9%Z
           (mkChannel true []) []).
  reflexivity.
Defined.

(** ** Rendering *)

(** Without JSON parsing, a command that ran gives its standard output,
    decoded from UTF-8 and trimmed of Unicode whitespace, as the text of one idle widget with no icon, tagged with the
    block's id (none when that text is empty and [hide_when_empty] is
    set). *)
Theorem X_render_plain_text parse_output set_icon exec w out :
  w.(blk).(Custom.json) = false ->
  exec (Block.render_command w.(blk)) = Ok out ->
  snd (Block.render parse_output set_icon exec w)
  = if String.eqb (stdout_text out) "" && w.(blk).(Custom.hide_when_empty)
    then Ok []
    else Ok [mkTextWidget w.(blk).(Custom.id) 0 (stdout_text out) None Idle].
Proof.
  intros Hj He. rewrite render_eq; cbn [snd blk].
  unfold Block.render_output, Block.render_text. rewrite Hj, He.
  cbn [res_bind Block.raw_output].
  destruct (_ && _); reflexivity.
Qed.

(** Output bytes [C2 A0 78 C2 A0]: an [x] between two no-break spaces. *)
Definition nbsp_padded_x : string :=
  String (ascii_of_nat 194) (String (ascii_of_nat 160) (String "x"
    (String (ascii_of_nat 194) (String (ascii_of_nat 160) "")))).

Definition x_nbsp_exec (c : Command) : result ProcOutput IoError :=
  Ok (mkProcOutput 0 nbsp_padded_x).

(** Witness of [X_render_plain_text]: the no-break spaces are trimmed. *)
Lemma X_render_plain_text_witness :
  snd (Block.render c1_parse c1_set_icon x_nbsp_exec
         (mkWorld c1_block (mkChannel true []) []))
  = Ok [mkTextWidget 0 0 "x" None Idle].
Proof.
  rewrite (X_render_plain_text c1_parse c1_set_icon x_nbsp_exec
             (mkWorld c1_block (mkChannel true []) [])
             (mkProcOutput 0 nbsp_padded_x) eq_refl eq_refl).
  vm_compute. reflexivity.
Defined.

(** With JSON parsing, a parsed object without icon gives one widget with
    the object's text and state and no icon (none when the text is empty
    and [hide_when_empty] is set); the icon lookup is not consulted. *)
Theorem X_render_json_no_icon parse_output set_icon exec w o :
  w.(blk).(Custom.json) = true ->
  parse_output (Block.raw_output (exec (Block.render_command w.(blk)))) = Ok o ->
  o.(out_icon) = "" ->
  snd (Block.render parse_output set_icon exec w)
  = if String.eqb o.(out_text) "" && w.(blk).(Custom.hide_when_empty)
    then Ok []
    else Ok [mkTextWidget w.(blk).(Custom.id) 0 o.(out_text) None o.(out_state)].
Proof.
  intros Hj Hp Hi. rewrite render_eq; cbn [snd blk].
  unfold Block.render_output, Block.render_text. rewrite Hj, Hp.
  cbn [res_bind map_err]. rewrite Hi. simpl.
  destruct (_ && _); reflexivity.
Qed.

Definition x_json_block : Custom.t :=
  Custom.mk 6 OnDemand (Some "status") None None None true false "sh".

Definition x_json_parse (s : string) : result Output string :=
  Ok (mkOutput "" Warning "low").

(** Witness of [X_render_json_no_icon]. *)
Lemma X_render_json_no_icon_witness :
  snd (Block.render x_json_parse c1_set_icon c1_exec
         (mkWorld x_json_block (mkChannel true []) []))
  = if String.eqb "low" "" && false
    then Ok []
    else Ok [mkTextWidget 6 0 "low" None Warning].
Proof.
  apply (X_render_json_no_icon x_json_parse c1_set_icon c1_exec
           (mkWorld x_json_block (mkChannel true []) []) (mkOutput "" Warning "low"));
    reflexivity.
Defined.

(** With JSON parsing, a parsed object naming an icon makes [render] look
    the icon up: a failed lookup is [render]'s error, a found icon ends up
    on the widget, which then takes the object's state and text. *)
Theorem X_render_json_icon parse_output set_icon exec w o :
  w.(blk).(Custom.json) = true ->
  parse_output (Block.raw_output (exec (Block.render_command w.(blk)))) = Ok o ->
  o.(out_icon) <> "" ->
  (forall e, set_icon (text_widget_new w.(blk).(Custom.id) 0) o.(out_icon) = Err e ->
   snd (Block.render parse_output set_icon exec w) = Err e) /\
  (forall wd, set_icon (text_widget_new w.(blk).(Custom.id) 0) o.(out_icon) = Ok wd ->
   snd (Block.render parse_output set_icon exec w)
   = if String.eqb o.(out_text) "" && w.(blk).(Custom.hide_when_empty)
     then Ok []
     else Ok [set_text (set_state wd o.(out_state)) o.(out_text)]).
Proof.
  intros Hj Hp Hi. rewrite render_eq; cbn [snd blk].
  unfold Block.render_output, Block.render_text. rewrite Hj, Hp.
  cbn [res_bind map_err].
  destruct (String.eqb_spec (out_icon o) "") as [He|_]; [contradiction|].
  cbn [negb]. unfold Block.id.
  split.
  - intros e Hs. rewrite Hs. reflexivity.
  - intros wd Hs. rewrite Hs. cbn [res_bind]. destruct (_ && _); reflexivity.
Qed.

Definition x_icon_parse (s : string) : result Output string :=
  Ok (mkOutput "bat" Critical "5%").

Definition x_icon_missing (w : TextWidget) (i : string) : result TextWidget Error :=
  Err (BlockError "custom" "icon not found").

(** Witness of [X_render_json_icon]: an icon the configuration lacks. *)
Lemma X_render_json_icon_witness :
  snd (Block.render x_icon_parse x_icon_missing c1_exec
         (mkWorld x_json_block (mkChannel true []) []))
  = Err (BlockError "custom" "icon not found").
Proof.
  apply (X_render_json_icon x_icon_parse x_icon_missing c1_exec
           (mkWorld x_json_block (mkChannel true []) []) (mkOutput "bat" Critical "5%"));
    try reflexivity; discriminate.
Defined.

(** ** Trimming of the displayed text *)

Lemma drop_ws_head l :
  drop_ws l = [] \/ exists c r, drop_ws l = c :: r /\ is_whitespace c = false.
Proof.
  induction l as [|c l IH]; simpl; [left; reflexivity|].
  destruct (is_whitespace c) eqn:Hc; [exact IH|right; eauto].
Qed.

Lemma drop_ws_snoc x c :
  is_whitespace c = false -> exists y, drop_ws (x ++ [c]) = (y ++ [c])%list.
Proof.
  intros Hc. induction x as [|a x IH]; simpl.
  - rewrite Hc. exists []. reflexivity.
  - destruct (is_whitespace a); [exact IH|exists (a :: x); reflexivity].
Qed.

Lemma drop_ws_all_ws l :
  Forall (fun c => is_whitespace c = true) l -> drop_ws l = [].
Proof. induction 1 as [|c l Hc _ IH]; simpl; [reflexivity|rewrite Hc; exact IH]. Qed.

Lemma trim_edges cs :
  (forall c r, trim cs = c :: r -> is_whitespace c = false) /\
  (forall r c, trim cs = (r ++ [c])%list -> is_whitespace c = false).
Proof.
  unfold trim.
  destruct (drop_ws_head cs) as [H0|(c & r & Hcr & Hc)].
  - rewrite H0. simpl. split; intros; [discriminate|].
    destruct r; discriminate.
  - rewrite Hcr. simpl.
    destruct (drop_ws_snoc (rev r) c Hc) as [y Hy]. rewrite Hy, rev_app_distr.
    simpl. split.
    + intros c' r' E. inversion E; subst. exact Hc.
    + intros r' c' E.
      destruct (drop_ws_head (rev r ++ [c])%list) as [Hn|(d0 & q0 & Hdq & Hd)];
        rewrite Hy in *.
      * destruct y; discriminate.
      * destruct y as [|d q].
        -- change (c :: rev []) with ([] ++ [c])%list in E.
           apply app_inj_tail in E as [_ <-]. exact Hc.
        -- inversion Hdq; subst d0.
           simpl in E. change (c :: (rev q ++ [d]))%list
             with ((c :: rev q) ++ [d])%list in E.
           apply app_inj_tail in E as [_ <-]. exact Hd.
Qed.

(** Without JSON parsing, the text a widget shows for a command that ran
    is the UTF-8 encoding of a sequence of characters that neither starts
    nor ends with a (Unicode) whitespace character. *)
Theorem X_render_text_trimmed parse_output set_icon exec w out wd :
  w.(blk).(Custom.json) = false ->
  exec (Block.render_command w.(blk)) = Ok out ->
  snd (Block.render parse_output set_icon exec w) = Ok [wd] ->
  exists cs, wd.(w_text) = string_of_chars cs /\
  (forall c r, cs = c :: r -> is_whitespace c = false) /\
  (forall r c, cs = (r ++ [c])%list -> is_whitespace c = false).
Proof.
  intros Hj He Hr.
  rewrite (X_render_plain_text parse_output set_icon exec w out Hj He) in Hr.
  destruct (_ && _); inversion Hr; subst.
  eexists. split; [reflexivity|]. apply trim_edges.
Qed.

(** Witness of [X_render_text_trimmed]: output padded with no-break
    spaces. *)
Lemma X_render_text_trimmed_witness :
  exists cs, "x" = string_of_chars cs /\
  (forall c r, cs = c :: r -> is_whitespace c = false) /\
  (forall r c, cs = (r ++ [c])%list -> is_whitespace c = false).
Proof.
  apply (X_render_text_trimmed c1_parse c1_set_icon x_nbsp_exec
           (mkWorld c1_block (mkChannel true []) [])
           (mkProcOutput 0 nbsp_padded_x)
           (mkTextWidget 0 0 "x" None Idle)); vm_compute; reflexivity.
Defined.

(** Without JSON parsing and with [hide_when_empty], a command whose
    output decodes to whitespace characters only renders no widget. *)
Theorem X_render_blank_hidden parse_output set_icon exec w out :
  w.(blk).(Custom.json) = false ->
  w.(blk).(Custom.hide_when_empty) = true ->
  exec (Block.render_command w.(blk)) = Ok out ->
  Forall (fun c => is_whitespace c = true)
         (from_utf8_lossy (list_ascii_of_string out.(stdout))) ->
  snd (Block.render parse_output set_icon exec w) = Ok [].
Proof.
  intros Hj Hh He Hws.
  rewrite (X_render_plain_text parse_output set_icon exec w out Hj He), Hh.
  unfold stdout_text, trim. rewrite (drop_ws_all_ws _ Hws). reflexivity.
Qed.

Definition x_blank_block : Custom.t :=
  Custom.mk 0 (Every 10000) (Some "true") None None None false true "sh".

(** A no-break space (bytes [C2 A0]) and a newline. *)
Definition nbsp_newline : string :=
  String (ascii_of_nat 194) (String (ascii_of_nat 160)
    (String (ascii_of_nat 10) "")).

(** Witness of [X_render_blank_hidden]: a no-break space and a newline. *)
Lemma X_render_blank_hidden_witness :
  snd (Block.render c1_parse c1_set_icon
         (fun _ => Ok (mkProcOutput 0 nbsp_newline))
         (mkWorld x_blank_block (mkChannel true []) [])) = Ok [].
Proof.
  apply (X_render_blank_hidden c1_parse c1_set_icon _ _
           (mkProcOutput 0 nbsp_newline)); try reflexivity.
  vm_compute. repeat constructor.
Defined.
